(** * The frontend environment module

    A shallow embedding of
    [frontend/src/environments/environment.ts]: one module that exports a
    [const] binding, [environment], to an object literal holding a production
    flag, the API server URL and the nested [auth0] object.

    The literal is embedded twice, and the two readings are tied together:
    - as a typed record ([EnvironmentConfig], the type TypeScript infers for
      the literal);
    - as the JavaScript objects the literal allocates when the module is
      evaluated (a heap of property maps), together with the operations a
      program that imports the module can apply to them. *)

From stdpp Require Import gmap strings list fin_maps.
From Stdlib Require Import Ascii String.

Open Scope string_scope.

(** ** The object literal, as typed by TypeScript *)

(** The nested [auth0] object. *)
Record Auth0Config := mkAuth0 {
  url : string;
  audience : string;
  clientId : string;
  callbackURL : string
}.

(** The exported object. *)
Record EnvironmentConfig := mkEnvironment {
  production : bool;
  apiServerUrl : string;
  auth0 : Auth0Config
}.

(** [export const environment = { ... }] *)
Definition environment : EnvironmentConfig :=
  {| production := false;
     apiServerUrl := "http://127.0.0.1:5000";
     auth0 :=
       {| url := "mikilade.us";
          audience := "https://csfsauth";
          clientId := "334zMeab2pYsTnt0cl8HImUCh0Zln5JX";
          callbackURL := "http://localhost:8100" |} |}.

(** The configuration variants the module defines, with the name each is
    exported under: there is one [export] statement. *)
Definition exports : list (string * EnvironmentConfig) :=
  [("environment", environment)].

Definition variants : list EnvironmentConfig := map snd exports.

(** The string-valued fields of a configuration. *)
Definition string_fields (e : EnvironmentConfig) : list string :=
  [apiServerUrl e; url (auth0 e); audience (auth0 e); clientId (auth0 e);
   callbackURL (auth0 e)].

Definition nonempty (s : string) : bool :=
  match s with
  | EmptyString => false
  | String _ _ => true
  end.

(** The properties of the nested [auth0] literal, all of them strings. *)
Inductive auth0_field := FUrl | FAudience | FClientId | FCallbackURL.

Definition auth0_field_name (f : auth0_field) : string :=
  match f with
  | FUrl => "url"
  | FAudience => "audience"
  | FClientId => "clientId"
  | FCallbackURL => "callbackURL"
  end.

Definition get_auth0_field (f : auth0_field) (a : Auth0Config) : string :=
  match f with
  | FUrl => url a
  | FAudience => audience a
  | FClientId => clientId a
  | FCallbackURL => callbackURL a
  end.

(** [a] with the property [f] replaced by [s]. *)
Definition set_auth0_field (f : auth0_field) (s : string) (a : Auth0Config)
  : Auth0Config :=
  match f with
  | FUrl =>
      {| url := s; audience := audience a; clientId := clientId a;
         callbackURL := callbackURL a |}
  | FAudience =>
      {| url := url a; audience := s; clientId := clientId a;
         callbackURL := callbackURL a |}
  | FClientId =>
      {| url := url a; audience := audience a; clientId := s;
         callbackURL := callbackURL a |}
  | FCallbackURL =>
      {| url := url a; audience := audience a; clientId := clientId a;
         callbackURL := s |}
  end.

(** The property names written in the outer literal. *)
Definition environment_keys : list string :=
  ["production"; "apiServerUrl"; "auth0"].

(** ** The module at run time *)

Module Runtime.

Definition loc := nat.

(** The JavaScript values the literal is made of. *)
Inductive value :=
| VUndefined
| VBool (b : bool)
| VString (s : string)
| VObject (l : loc).

(** An object is a finite map from property names to values. *)
Abbreviation object := (gmap string value).

(** [binding] is what the identifier [environment] denotes; [next] is the
    next free location. *)
Record state := mkState {
  heap : gmap loc object;
  binding : value;
  next : loc
}.

Definition alloc (o : object) (h : gmap loc object) (n : loc)
  : loc * gmap loc object * loc :=
  (n, <[n := o]> h, S n).

(** The inner literal [{ url: ..., audience: ..., clientId: ...,
    callbackURL: ... }]. *)
Definition auth0_object (a : Auth0Config) : object :=
  <["url" := VString (url a)]>
  (<["audience" := VString (audience a)]>
  (<["clientId" := VString (clientId a)]>
  (<["callbackURL" := VString (callbackURL a)]> ∅))).

(** The outer literal, its [auth0] property referring to the inner
    object. *)
Definition environment_object (e : EnvironmentConfig) (la : loc) : object :=
  <["production" := VBool (production e)]>
  (<["apiServerUrl" := VString (apiServerUrl e)]>
  (<["auth0" := VObject la]> ∅)).

(** Evaluating the module with the literal [e]: the two objects of the
    literal are allocated and [environment] is bound to the outer one.
    No input is read. *)
Definition load (e : EnvironmentConfig) : state :=
  let '(la, h1, n1) := alloc (auth0_object (auth0 e)) ∅ 0 in
  let '(le, h2, n2) := alloc (environment_object e la) h1 n1 in
  {| heap := h2; binding := VObject le; next := n2 |}.

(** The state after the module's source, as written, has been
    evaluated. *)
Definition module_init : state := load environment.

(** Outcome of an operation: a value, or a thrown [TypeError]. *)
Inductive result :=
| Ok (v : value)
| TypeError.

(** The operations of an importing program that are modelled:
    - [Get]             the expression [environment];
    - [GetProp l k]     the expression [o.k], [o] the object at [l];
    - [SetProp l k v]   the assignment [o.k = v];
    - [DeleteProp l k]  the expression [delete o.k];
    - [Assign v]        the assignment [environment = v].

    Objects are modelled by their own data properties.  The prototype
    chain is not: [GetProp] is [o.k] for [k] an own property or a name
    that [Object.prototype] does not define, and [SetProp] is [o.k = v]
    for [k] other than ["__proto__"].  [Object.defineProperty],
    [Object.freeze] and the like are not modelled either. *)
Inductive op :=
| Get
| GetProp (l : loc) (k : string)
| SetProp (l : loc) (k : string) (v : value)
| DeleteProp (l : loc) (k : string)
| Assign (v : value).

(** One operation.  The literal is not frozen and none of its properties
    is read-only, so a property assignment goes through (and adds the
    property when it is new); its properties are configurable, so a
    deletion removes the property and evaluates to [true], as it does
    when there is no such property; the binding is [const], so assigning
    to it throws.  A location that holds no object cannot be reached by a
    program; the operations are made total by throwing there. *)
Definition step (o : op) (st : state) : result * state :=
  match o with
  | Get => (Ok (binding st), st)
  | GetProp l k =>
      match heap st !! l with
      | Some ob => (Ok (default VUndefined (ob !! k)), st)
      | None => (TypeError, st)
      end
  | SetProp l k v =>
      match heap st !! l with
      | Some ob =>
          (Ok v, {| heap := <[l := <[k := v]> ob]> (heap st);
                    binding := binding st;
                    next := next st |})
      | None => (TypeError, st)
      end
  | DeleteProp l k =>
      match heap st !! l with
      | Some ob =>
          (Ok (VBool true),
           {| heap := <[l := delete k ob]> (heap st);
              binding := binding st;
              next := next st |})
      | None => (TypeError, st)
      end
  | Assign _ => (TypeError, st)
  end.

(** The provider's accessor: reading the exported constant. *)
Definition get (st : state) : result * state := step Get st.

(** Running a program: a sequence of operations, from left to right. *)
Fixpoint exec (ops : list op) (st : state) : state :=
  match ops with
  | [] => st
  | o :: ops' => exec ops' (snd (step o st))
  end.

(** The results of a program, in order. *)
Fixpoint results (ops : list op) (st : state) : list result :=
  match ops with
  | [] => []
  | o :: ops' => fst (step o st) :: results ops' (snd (step o st))
  end.

(** The own property [k] of the object at [l], when there is one. *)
Definition own (st : state) (l : loc) (k : string) : option value :=
  match heap st !! l with
  | Some ob => ob !! k
  | None => None
  end.

(** [o] writes to the property [k] of the object at [l]: it assigns to it
    or deletes it. *)
Definition writes_to (l : loc) (k : string) (o : op) : bool :=
  match o with
  | SetProp l' k' _ => Nat.eqb l' l && String.eqb k' k
  | DeleteProp l' k' => Nat.eqb l' l && String.eqb k' k
  | _ => false
  end.

(** The seven properties the two literals are written with: three of the
    outer object, at location 1 once loaded, and four of the [auth0]
    object, at location 0. *)
Definition config_properties : list (loc * string) :=
  [(1, "production"); (1, "apiServerUrl"); (1, "auth0");
   (0, "url"); (0, "audience"); (0, "clientId"); (0, "callbackURL")].

(** [o] writes to one of them. *)
Definition writes_config (o : op) : bool :=
  existsb (fun lk => writes_to (fst lk) (snd lk) o) config_properties.

(** *** Reading the objects back at their TypeScript type *)

Definition read_bool (o : object) (k : string) : option bool :=
  match o !! k with
  | Some (VBool b) => Some b
  | _ => None
  end.

Definition read_string (o : object) (k : string) : option string :=
  match o !! k with
  | Some (VString s) => Some s
  | _ => None
  end.

Definition read_object (h : gmap loc object) (o : object) (k : string)
  : option object :=
  match o !! k with
  | Some (VObject l) => h !! l
  | _ => None
  end.

Definition deref (h : gmap loc object) (v : value) : option object :=
  match v with
  | VObject l => h !! l
  | _ => None
  end.

Definition snapshot_auth0 (o : object) : option Auth0Config :=
  u ← read_string o "url";
  a ← read_string o "audience";
  c ← read_string o "clientId";
  cb ← read_string o "callbackURL";
  Some {| url := u; audience := a; clientId := c; callbackURL := cb |}.

(** The deep contents of the object [environment] denotes; [None] when
    they no longer have the shape of an [EnvironmentConfig]. *)
Definition snapshot (st : state) : option EnvironmentConfig :=
  o ← deref (heap st) (binding st);
  p ← read_bool o "production";
  api ← read_string o "apiServerUrl";
  ao ← read_object (heap st) o "auth0";
  a ← snapshot_auth0 ao;
  Some {| production := p; apiServerUrl := api; auth0 := a |}.

(** What a caller of [get] sees: the deep contents of the object [get]
    returned. *)
Definition observe (st : state) : option EnvironmentConfig :=
  match fst (get st) with
  | Ok v => snapshot {| heap := heap st; binding := v; next := next st |}
  | TypeError => None
  end.

End Runtime.

(** ** Absolute URLs

    The module holds its URLs as plain strings and never parses them.  The
    grammar below is the one the properties about URLs are stated against: a
    scheme, ["://"], a host, an optional port and whatever follows, in the
    strict reading of RFC 3986 (letters, digits, ["+"], ["-"], ["."] in a
    scheme that starts with a letter; letters, digits, ["-"], ["."] in a
    host; digits in a port). *)

Module Url.

Definition in_range (lo hi : nat) (c : ascii) : bool :=
  (lo <=? nat_of_ascii c)%nat && (nat_of_ascii c <=? hi)%nat.

Definition is_alpha (c : ascii) : bool :=
  in_range 65 90 c || in_range 97 122 c.

Definition is_digit (c : ascii) : bool := in_range 48 57 c.

Definition is_scheme_char (c : ascii) : bool :=
  is_alpha c || is_digit c
  || Ascii.eqb c "+" || Ascii.eqb c "-" || Ascii.eqb c ".".

Definition is_host_char (c : ascii) : bool :=
  is_alpha c || is_digit c || Ascii.eqb c "-" || Ascii.eqb c ".".

(** The longest prefix whose characters all satisfy [p], and the rest. *)
Fixpoint span (p : ascii -> bool) (s : string) : string * string :=
  match s with
  | EmptyString => (EmptyString, EmptyString)
  | String c s' =>
      if p c
      then let '(a, b) := span p s' in (String c a, b)
      else (EmptyString, s)
  end.

Fixpoint all_chars (p : ascii -> bool) (s : string) : bool :=
  match s with
  | EmptyString => true
  | String c s' => p c && all_chars p s'
  end.

Definition starts_with_alpha (s : string) : bool :=
  match s with
  | String c _ => is_alpha c
  | EmptyString => false
  end.

(** What follows the authority: nothing, or a path, query or fragment. *)
Definition starts_tail (s : string) : bool :=
  match s with
  | EmptyString => true
  | String c _ => Ascii.eqb c "/" || Ascii.eqb c "?" || Ascii.eqb c "#"
  end.

Record url := mkUrl {
  scheme : string;
  host : string;
  port : option string;
  tail : string
}.

(** [strip_prefix pre s] is what follows [pre] in [s], when [s] starts
    with [pre]. *)
Fixpoint strip_prefix (pre s : string) : option string :=
  match pre, s with
  | EmptyString, _ => Some s
  | String a pre', String b s' =>
      if Ascii.eqb a b then strip_prefix pre' s' else None
  | String _ _, EmptyString => None
  end.

(** After the host: [":" digits] or nothing, then the tail. *)
Definition parse_port (s : string) : option (option string * string) :=
  match strip_prefix ":" s with
  | Some s' =>
      let '(p, t) := span is_digit s' in
      if starts_tail t then Some (Some p, t) else None
  | None => if starts_tail s then Some (None, s) else None
  end.

Definition parse (s : string) : option url :=
  let '(sch, r) := span is_scheme_char s in
  match strip_prefix "://" r with
  | Some r' =>
      let '(h, r'') := span is_host_char r' in
      match parse_port r'' with
      | Some (p, t) =>
          if starts_with_alpha sch && nonempty h
          then Some {| scheme := sch; host := h; port := p; tail := t |}
          else None
      | None => None
      end
  | None => None
  end.

Definition is_absolute (s : string) : bool :=
  match parse s with
  | Some _ => true
  | None => false
  end.

(** Writing a parsed URL out again. *)
Definition port_suffix (p : option string) : string :=
  match p with
  | Some d => String ":" d
  | None => EmptyString
  end.

Definition unparse (u : url) : string :=
  scheme u ++ "://" ++ host u ++ port_suffix (port u) ++ tail u.

(** A host on the machine itself: [localhost], or an address of the
    IPv4 loopback block 127.0.0.0/8. *)
Definition is_loopback (h : string) : bool :=
  String.eqb h "localhost" || String.prefix "127." h.

Fixpoint has_char (c : ascii) (s : string) : bool :=
  match s with
  | EmptyString => false
  | String d s' => Ascii.eqb c d || has_char c s'
  end.

End Url.

Import Runtime.

(** ** Lemmas on the run-time model *)

Section Programs.

Implicit Types (st : state) (ops : list op) (o : op).

Lemma step_binding o st : binding (snd (step o st)) = binding st.
Proof.
  destruct o as [|l k|l k v|l k|v]; simpl; try reflexivity;
    destruct (heap st !! l); reflexivity.
Qed.

Lemma exec_binding ops st : binding (exec ops st) = binding st.
Proof.
  revert st; induction ops as [|o ops IH]; intros st; simpl.
  - reflexivity.
  - rewrite IH. apply step_binding.
Qed.

Lemma writes_to_false l k l' k' :
  Nat.eqb l' l && String.eqb k' k = false -> l' <> l \/ k' <> k.
Proof.
  intros H. apply andb_false_iff in H as [H|H].
  - left. now apply Nat.eqb_neq.
  - right. now apply String.eqb_neq.
Qed.

(** An operation that does not write to a property leaves it as it is. *)
Lemma step_frame o st l k :
  writes_to l k o = false -> own (snd (step o st)) l k = own st l k.
Proof.
  unfold own.
  destruct o as [|l' k'|l' k' v|l' k'|v]; simpl; intros H; try reflexivity.
  - destruct (heap st !! l'); reflexivity.
  - destruct (heap st !! l') as [ob|] eqn:Hl'; simpl; [|reflexivity].
    destruct (decide (l' = l)) as [->|Hne].
    + rewrite lookup_insert_eq, Hl'.
      destruct (writes_to_false _ _ _ _ H) as [Hl|Hk]; [congruence|].
      now rewrite lookup_insert_ne.
    + now rewrite lookup_insert_ne.
  - destruct (heap st !! l') as [ob|] eqn:Hl'; simpl; [|reflexivity].
    destruct (decide (l' = l)) as [->|Hne].
    + rewrite lookup_insert_eq, Hl'.
      destruct (writes_to_false _ _ _ _ H) as [Hl|Hk]; [congruence|].
      now rewrite lookup_delete_ne.
    + now rewrite lookup_insert_ne.
Qed.

Lemma exec_frame ops st l k :
  existsb (writes_to l k) ops = false -> own (exec ops st) l k = own st l k.
Proof.
  revert st; induction ops as [|o ops IH]; intros st H; simpl in *.
  - reflexivity.
  - apply orb_false_elim in H as [Ho Hops].
    rewrite (IH _ Hops). apply step_frame, Ho.
Qed.

(** What a caller of [get] sees is what [environment] denotes. *)
Lemma observe_snapshot st : observe st = snapshot st.
Proof. reflexivity. Qed.

(** A program that writes to none of the seven properties writes to none
    of them in particular. *)
Lemma writes_config_false ops l k :
  existsb writes_config ops = false ->
  In (l, k) config_properties ->
  existsb (writes_to l k) ops = false.
Proof.
  intros H Hin.
  destruct (existsb (writes_to l k) ops) eqn:E; [|reflexivity].
  apply existsb_exists in E as [o [Ho Hw]].
  assert (Hc : existsb writes_config ops = true).
  { apply existsb_exists. exists o. split; [exact Ho|].
    apply existsb_exists. exists (l, k). split; [exact Hin | exact Hw]. }
  congruence.
Qed.

(** The contents seen through [environment] are fixed by the binding and
    the seven properties. *)
Lemma snapshot_own (e : EnvironmentConfig) st :
  binding st = VObject 1 ->
  own st 1 "production" = Some (VBool (production e)) ->
  own st 1 "apiServerUrl" = Some (VString (apiServerUrl e)) ->
  own st 1 "auth0" = Some (VObject 0) ->
  own st 0 "url" = Some (VString (url (auth0 e))) ->
  own st 0 "audience" = Some (VString (audience (auth0 e))) ->
  own st 0 "clientId" = Some (VString (clientId (auth0 e))) ->
  own st 0 "callbackURL" = Some (VString (callbackURL (auth0 e))) ->
  snapshot st = Some e.
Proof.
  unfold own, snapshot, snapshot_auth0, deref, read_bool, read_string,
    read_object.
  intros ->.
  destruct (heap st !! (1 : loc)) as [ob|]; [|intros H; discriminate H].
  destruct (heap st !! (0 : loc)) as [ao|] eqn:H0;
    [|intros _ _ _ H; discriminate H].
  intros Hp Ha Hr Hu Hau Hc Hcb.
  simpl. rewrite Hp; simpl. rewrite Ha; simpl. rewrite Hr, H0; simpl.
  rewrite Hu; simpl. rewrite Hau; simpl. rewrite Hc; simpl.
  rewrite Hcb; simpl.
  destruct e as [p api [u a c cb]]. reflexivity.
Qed.

Lemma exec_gets n st : exec (repeat Get n) st = st.
Proof. induction n as [|n IH]; simpl; [reflexivity | exact IH]. Qed.

Lemma results_gets n st :
  results (repeat Get n) st = repeat (Ok (binding st)) n.
Proof.
  induction n as [|n IH]; simpl; [reflexivity | now rewrite IH].
Qed.

Lemma snapshot_load (e : EnvironmentConfig) : snapshot (load e) = Some e.
Proof. destruct e as [p api [u a c cb]]. vm_compute. reflexivity. Qed.

End Programs.

(** ** Lemmas on the URL grammar *)

Section Grammar.

Import Url.

Lemma span_spec p s a b :
  span p s = (a, b) ->
  s = a ++ b /\ all_chars p a = true.
Proof.
  revert a b; induction s as [|c s IH]; intros a b H; simpl in H.
  - injection H as <- <-. split; reflexivity.
  - destruct (p c) eqn:Hc.
    + destruct (span p s) as [a' b'] eqn:Hs.
      injection H as <- <-.
      destruct (IH a' b' eq_refl) as [-> Ha].
      split; [reflexivity | simpl; now rewrite Hc, Ha].
    + injection H as <- <-. split; reflexivity.
Qed.

Lemma strip_prefix_spec pre s r :
  strip_prefix pre s = Some r -> s = pre ++ r.
Proof.
  revert s; induction pre as [|a pre IH]; intros s H; simpl in H.
  - injection H as ->. reflexivity.
  - destruct s as [|b s]; [discriminate H|].
    destruct (Ascii.eqb_spec a b) as [->|_]; [|discriminate H].
    rewrite (IH s H). reflexivity.
Qed.

Lemma parse_port_spec s p t :
  parse_port s = Some (p, t) ->
  s = port_suffix p ++ t /\ starts_tail t = true.
Proof.
  unfold parse_port. intros H.
  destruct (strip_prefix ":" s) as [s'|] eqn:Hs.
  - destruct (span is_digit s') as [d t'] eqn:Hd.
    destruct (starts_tail t') eqn:Ht; [|discriminate H].
    injection H as <- <-.
    apply strip_prefix_spec in Hs. apply span_spec in Hd as [-> _].
    split; [exact Hs | exact Ht].
  - destruct (starts_tail s) eqn:Ht; [|discriminate H].
    injection H as <- <-. split; [reflexivity | exact Ht].
Qed.

(** Whatever [parse] accepts is a scheme that starts with a letter,
    ["://"], a host that is not empty, then the port and the tail: the
    parts written out again give the string that was parsed. *)
Lemma parse_sound s u :
  parse s = Some u ->
  unparse u = s
  /\ starts_with_alpha (scheme u) = true
  /\ all_chars is_scheme_char (scheme u) = true
  /\ nonempty (host u) = true
  /\ all_chars is_host_char (host u) = true.
Proof.
  unfold parse. intros H.
  destruct (span is_scheme_char s) as [sch r] eqn:Hsch.
  destruct (strip_prefix "://" r) as [r'|] eqn:Hr; [|discriminate H].
  destruct (span is_host_char r') as [h r''] eqn:Hh.
  destruct (parse_port r'') as [[p t]|] eqn:Hp; [|discriminate H].
  destruct (starts_with_alpha sch && nonempty h) eqn:Hok; [|discriminate H].
  injection H as <-. apply andb_prop in Hok as [Ha Hn].
  apply span_spec in Hsch as [-> Hs1].
  apply strip_prefix_spec in Hr as ->.
  apply span_spec in Hh as [-> Hh1].
  apply parse_port_spec in Hp as [-> _].
  unfold unparse; simpl.
  repeat split; try assumption.
Qed.

End Grammar.

(** The grammar tells the URLs of the configuration from its other
    strings: the identity provider's domain and the client id are not
    absolute URLs. *)
Example domain_and_client_id_are_not_urls :
  Url.is_absolute (url (auth0 environment)) = false
  /\ Url.is_absolute (clientId (auth0 environment)) = false.
Proof. split; reflexivity. Qed.

(** ** The properties of the configuration provider *)

(** C1.  For any configuration [e] compiled into the module (the deployment
    target) and any program [ops] run since the module was loaded, reading
    the exported constant returns what it returned on the freshly loaded
    module, and leaves the state as it is; so any number [n] of reads in a
    row return that same result [n] times, and the contents seen through
    it are the same before and after the reads. *)
Theorem get_returns_same_value (e : EnvironmentConfig) (ops : list op) (n : nat) :
  let st := exec ops (load e) in
  fst (get st) = fst (get (load e))
  /\ snd (get st) = st
  /\ fst (get (snd (get st))) = fst (get st)
  /\ results (repeat Get n) st = repeat (fst (get (load e))) n
  /\ snapshot (exec (repeat Get n) st) = snapshot st.
Proof.
  intros st. unfold get; simpl.
  assert (Hb : binding st = binding (load e)) by apply exec_binding.
  repeat split.
  - now rewrite Hb.
  - rewrite results_gets. now rewrite Hb.
  - now rewrite exec_gets.
Qed.

(** C2.  In the development variant, the one in the source, the API base
    URL ([apiServerUrl]) is exactly ["http://127.0.0.1:5000"] and the
    identity provider's client id ([auth0.clientId]) is exactly
    ["334zMeab2pYsTnt0cl8HImUCh0Zln5JX"]: in the literal, in the contents
    of the loaded module, and as the results of evaluating
    [environment.apiServerUrl] and [environment.auth0.clientId]. *)
Theorem development_values :
  apiServerUrl environment = "http://127.0.0.1:5000"
  /\ clientId (auth0 environment) = "334zMeab2pYsTnt0cl8HImUCh0Zln5JX"
  /\ apiServerUrl <$> snapshot module_init = Some "http://127.0.0.1:5000"
  /\ (fun c => clientId (auth0 c)) <$> snapshot module_init
     = Some "334zMeab2pYsTnt0cl8HImUCh0Zln5JX"
  /\ results [Get; GetProp 1 "apiServerUrl"] module_init
     = [Ok (VObject 1); Ok (VString "http://127.0.0.1:5000")]
  /\ results [Get; GetProp 1 "auth0"; GetProp 0 "clientId"] module_init
     = [Ok (VObject 1); Ok (VObject 0);
        Ok (VString "334zMeab2pYsTnt0cl8HImUCh0Zln5JX")].
Proof. repeat split; vm_compute; reflexivity. Qed.

(** C3, as stated, fails: the object is not frozen.  After the single
    assignment [environment.production = true] the contents of the
    configuration object are no longer those it was constructed with. *)
Lemma production_field_can_be_mutated :
  snapshot (exec [SetProp 1 "production" (VBool true)] module_init)
  = Some {| production := true;
            apiServerUrl := apiServerUrl environment;
            auth0 := auth0 environment |}
  /\ snapshot (exec [SetProp 1 "production" (VBool true)] module_init)
     <> snapshot module_init.
Proof. split; [vm_compute; reflexivity | vm_compute; discriminate]. Qed.

(** C3, amended.  The configuration object is not immutable: it is not
    frozen, and an assignment to a property of an object (other than
    ["__proto__"]) sets that property to the assigned value.  What holds for every sequence [ops] of the modelled
    operations (reading the binding, reading a property, assigning to a
    property, deleting a property, assigning to the binding), on the module
    loaded with any configuration [e]:
    - the binding [environment] is [const]: it still denotes the object
      constructed at load, and an assignment to it throws and changes
      nothing;
    - a field changes only by a write to that very property: every
      property that [ops] neither assigns to nor deletes has the value it
      had at load, so when [ops] writes to none of the seven properties of
      the configuration, its contents are [e], as constructed. *)
Theorem environment_field_changes_only_when_written
    (e : EnvironmentConfig) (ops : list op) :
  binding (exec ops (load e)) = binding (load e)
  /\ (forall v st, step (Assign v) st = (TypeError, st))
  /\ (forall l k,
        existsb (writes_to l k) ops = false ->
        own (exec ops (load e)) l k = own (load e) l k)
  /\ (existsb writes_config ops = false ->
      snapshot (exec ops (load e)) = Some e)
  /\ (forall st l k v,
        is_Some (heap st !! l) ->
        k <> "__proto__" ->
        own (snd (step (SetProp l k v) st)) l k = Some v).
Proof.
  split; [apply exec_binding|]. split; [reflexivity|].
  split; [intros l k H; apply exec_frame, H|]. split.
  - intros H.
    assert (Hf : forall l k, In (l, k) config_properties ->
                 own (exec ops (load e)) l k = own (load e) l k).
    { intros l k Hin. apply exec_frame, (writes_config_false ops l k H Hin). }
    apply snapshot_own.
    + rewrite exec_binding. reflexivity.
    + rewrite Hf by (simpl; tauto).
      destruct e as [p api [u a c cb]]. reflexivity.
    + rewrite Hf by (simpl; tauto).
      destruct e as [p api [u a c cb]]. reflexivity.
    + rewrite Hf by (simpl; tauto). reflexivity.
    + rewrite Hf by (simpl; tauto).
      destruct e as [p api [u a c cb]]. reflexivity.
    + rewrite Hf by (simpl; tauto).
      destruct e as [p api [u a c cb]]. reflexivity.
    + rewrite Hf by (simpl; tauto).
      destruct e as [p api [u a c cb]]. reflexivity.
    + rewrite Hf by (simpl; tauto).
      destruct e as [p api [u a c cb]]. reflexivity.
  - intros st l k v [ob Hob] _. unfold own; simpl. rewrite Hob; simpl.
    rewrite lookup_insert_eq. apply lookup_insert_eq.
Qed.

Lemma environment_field_changes_only_when_written_witness :
  existsb (writes_to 1 "apiServerUrl")
    [SetProp 1 "production" (VBool true); DeleteProp 0 "url"; Get] = false
  /\ own (exec [SetProp 1 "production" (VBool true); DeleteProp 0 "url"; Get]
            module_init) 1 "apiServerUrl"
     = Some (VString "http://127.0.0.1:5000")
  /\ existsb writes_config
       [SetProp 1 "apiBaseUrl" (VString "x"); SetProp 0 "scope" (VString "y");
        DeleteProp 1 "identityProvider"; GetProp 1 "auth0";
        Assign (VBool true)] = false
  /\ snapshot
       (exec [SetProp 1 "apiBaseUrl" (VString "x");
              SetProp 0 "scope" (VString "y");
              DeleteProp 1 "identityProvider"; GetProp 1 "auth0";
              Assign (VBool true)] module_init)
     = Some environment
  /\ is_Some (heap module_init !! 1)
  /\ "production" <> "__proto__"
  /\ own (snd (step (SetProp 1 "production" (VBool true)) module_init))
       1 "production" = Some (VBool true).
Proof.
  unfold module_init.
  split; [reflexivity|]. split.
  { rewrite (proj1 (proj2 (proj2
       (environment_field_changes_only_when_written environment
          [SetProp 1 "production" (VBool true); DeleteProp 0 "url"; Get])))
       1 "apiServerUrl" eq_refl).
    reflexivity. }
  split; [reflexivity|]. split.
  { apply (environment_field_changes_only_when_written environment
             [SetProp 1 "apiBaseUrl" (VString "x");
              SetProp 0 "scope" (VString "y");
              DeleteProp 1 "identityProvider"; GetProp 1 "auth0";
              Assign (VBool true)]).
    reflexivity. }
  assert (Hs : is_Some (heap (load environment) !! 1)).
  { eexists. vm_compute. reflexivity. }
  split; [exact Hs|]. split; [discriminate|].
  apply (environment_field_changes_only_when_written environment []);
    [exact Hs | discriminate].
Defined.

(** C4.  Reading the configuration cannot fail.  In every state, [get]
    returns a value and never throws; after any program run on the module
    loaded with any configuration [e], that value is the configuration
    object.  Loading validates nothing: whatever the fields of [e] are
    (empty strings included), the module loads and holds exactly [e]. *)
Theorem get_never_fails (e : EnvironmentConfig) (ops : list op) (st : state) :
  get st = (Ok (binding st), st)
  /\ fst (get st) <> TypeError
  /\ fst (get (exec ops (load e))) = Ok (VObject 1)
  /\ snapshot (load e) = Some e.
Proof.
  split; [reflexivity|]. split; [discriminate|].
  split; [|apply snapshot_load].
  unfold get; simpl. now rewrite exec_binding.
Qed.

(** C5.  Every string field of the supplied configuration, [apiServerUrl],
    [auth0.url], [auth0.audience], [auth0.clientId] and
    [auth0.callbackURL], is a non-empty string. *)
Theorem string_fields_nonempty :
  apiServerUrl environment <> ""
  /\ url (auth0 environment) <> ""
  /\ audience (auth0 environment) <> ""
  /\ clientId (auth0 environment) <> ""
  /\ callbackURL (auth0 environment) <> ""
  /\ forallb nonempty (string_fields environment) = true.
Proof. repeat split; (discriminate || reflexivity). Qed.

(** C6.  [apiServerUrl] and [auth0.callbackURL] of the supplied
    configuration parse as absolute URLs: each is a scheme that starts with
    a letter, ["://"] and a non-empty host (here followed by a port), and
    the parsed parts make up the whole string. *)
Theorem urls_are_absolute :
  Url.is_absolute (apiServerUrl environment) = true
  /\ Url.is_absolute (callbackURL (auth0 environment)) = true
  /\ (exists u, Url.parse (apiServerUrl environment) = Some u
        /\ Url.unparse u = apiServerUrl environment
        /\ nonempty (Url.scheme u) = true /\ nonempty (Url.host u) = true)
  /\ (exists u, Url.parse (callbackURL (auth0 environment)) = Some u
        /\ Url.unparse u = callbackURL (auth0 environment)
        /\ nonempty (Url.scheme u) = true /\ nonempty (Url.host u) = true).
Proof.
  split; [reflexivity|]. split; [reflexivity|]. split.
  - exists (Url.mkUrl "http" "127.0.0.1" (Some "5000") "").
    repeat split; vm_compute; reflexivity.
  - exists (Url.mkUrl "http" "localhost" (Some "8100") "").
    repeat split; vm_compute; reflexivity.
Qed.

(** C7, as stated, fails: among the variants the artifact defines, the
    number of those with [production] true is 0, not 1. *)
Lemma no_variant_is_production :
  List.length (List.filter production variants) = 0
  /\ List.length (List.filter production variants) <> 1.
Proof. split; [reflexivity | discriminate]. Qed.

(** C7, amended.  The artifact defines one deployment variant, and
    [production] is false in it: it is true in no variant and false in
    all. *)
Theorem production_false_in_every_variant :
  variants = [environment]
  /\ List.filter production variants = []
  /\ forallb (fun v => negb (production v)) variants = true.
Proof. repeat split; reflexivity. Qed.

(** C8, as stated, fails: the value [get] returns does not always equal
    a complete variant record.  On the module as supplied, after the
    single assignment [environment.production = true], what a caller of
    [get] sees has [production] true and every other field of the
    supplied variant, and is none of the artifact's variants. *)
Lemma get_can_observe_a_non_variant :
  observe (exec [SetProp 1 "production" (VBool true)] module_init)
  = Some {| production := true;
            apiServerUrl := apiServerUrl environment;
            auth0 := auth0 environment |}
  /\ ~ In {| production := true;
             apiServerUrl := apiServerUrl environment;
             auth0 := auth0 environment |} variants.
Proof.
  split; [vm_compute; reflexivity|].
  simpl. intros [H|[]]. discriminate H.
Qed.

(** C8, amended.  The module is built from one object literal as a whole,
    and nothing switches variants at run time.  Whichever variant [e] is
    compiled in: at load, what a caller of [get] sees is the complete
    record [e]; after every sequence [ops] of the modelled operations
    (reading the binding, reading a property, assigning to a property,
    deleting a property, assigning to the binding) [get] returns the
    object constructed from that literal; and as long as [ops] writes to
    none of the seven properties of the configuration, what a caller of
    [get] sees is still the complete record [e].  For the module as
    supplied, that record is one of the artifact's variants. *)
Theorem get_observes_complete_variant_unless_written
    (e : EnvironmentConfig) (ops : list op) :
  observe (load e) = Some e
  /\ get (exec ops (load e)) = (Ok (VObject 1), exec ops (load e))
  /\ (existsb writes_config ops = false ->
      observe (exec ops (load e)) = Some e)
  /\ (existsb writes_config ops = false ->
      exists v, In v variants /\ observe (exec ops module_init) = Some v).
Proof.
  assert (Hget : forall e', get (exec ops (load e'))
                            = (Ok (VObject 1), exec ops (load e'))).
  { intros e'. unfold get; simpl. now rewrite exec_binding. }
  assert (Hobs : forall e', existsb writes_config ops = false ->
                            observe (exec ops (load e')) = Some e').
  { intros e' H. rewrite observe_snapshot.
    apply snapshot_own;
      [rewrite exec_binding; reflexivity | ..];
      (rewrite (exec_frame ops (load e'))
         by (apply (writes_config_false ops _ _ H); simpl; tauto));
      destruct e' as [p api [u a c cb]]; reflexivity. }
  split; [destruct e as [p api [u a c cb]]; vm_compute; reflexivity|].
  split; [apply Hget|]. split; [apply Hobs|].
  intros H. exists environment. split; [left; reflexivity|].
  apply (Hobs environment H).
Qed.

Lemma get_observes_complete_variant_unless_written_witness :
  let prod :=
    {| production := true;
       apiServerUrl := "https://api.example.com";
       auth0 := {| url := "tenant.eu"; audience := "https://api";
                   clientId := "abc"; callbackURL := "https://app.example.com" |} |} in
  let ops := [Get; GetProp 1 "production"; SetProp 1 "build" (VString "42");
              DeleteProp 0 "scope"; GetProp 0 "url"] in
  existsb writes_config ops = false
  /\ observe (exec ops (load prod)) = Some prod.
Proof.
  intros prod ops. split; [reflexivity|].
  apply (get_observes_complete_variant_unless_written prod ops).
  reflexivity.
Defined.

(** C9.  The module has one export, [environment], and so the artifact
    defines one variant.  Its [production] flag is false, every other field
    is the string literal written in the source, no variant has
    [production] true, and nothing selects among variants: the loaded
    module holds the literal, and [environment] denotes that one object
    whatever program runs. *)
Theorem single_development_variant (ops : list op) :
  exports = [("environment", environment)]
  /\ variants = [environment]
  /\ List.length variants = 1
  /\ production environment = false
  /\ List.filter production variants = []
  /\ environment
     = mkEnvironment false "http://127.0.0.1:5000"
         (mkAuth0 "mikilade.us" "https://csfsauth"
            "334zMeab2pYsTnt0cl8HImUCh0Zln5JX" "http://localhost:8100")
  /\ snapshot module_init = Some environment
  /\ binding (exec ops module_init) = VObject 1.
Proof.
  repeat split; try reflexivity.
  rewrite exec_binding. reflexivity.
Qed.

(** C10.  [apiServerUrl] is ["http://127.0.0.1:5000"] and
    [auth0.callbackURL] is ["http://localhost:8100"]: the scheme of both is
    ["http"], not ["https"], and the host of both is a loopback host.
    [auth0.audience] is ["https://csfsauth"]: its scheme is ["https"], and
    after the scheme comes the identifier ["csfsauth"] alone, a single
    label with no port, path, query or fragment. *)
Theorem url_schemes_and_hosts :
  apiServerUrl environment = "http://127.0.0.1:5000"
  /\ callbackURL (auth0 environment) = "http://localhost:8100"
  /\ audience (auth0 environment) = "https://csfsauth"
  /\ Url.parse (apiServerUrl environment)
     = Some (Url.mkUrl "http" "127.0.0.1" (Some "5000") "")
  /\ Url.parse (callbackURL (auth0 environment))
     = Some (Url.mkUrl "http" "localhost" (Some "8100") "")
  /\ (fun u => Url.is_loopback (Url.host u))
       <$> Url.parse (apiServerUrl environment) = Some true
  /\ (fun u => Url.is_loopback (Url.host u))
       <$> Url.parse (callbackURL (auth0 environment)) = Some true
  /\ Url.parse (audience (auth0 environment))
     = Some (Url.mkUrl "https" "csfsauth" None "")
  /\ (fun u => Url.has_char "." (Url.host u))
       <$> Url.parse (audience (auth0 environment)) = Some false.
Proof. repeat split; vm_compute; reflexivity. Qed.


(** ** Further properties of the exported object

    The literal is a plain object holding a nested plain object.  What
    follows from that for a program that writes to it: the nested object is
    shared, an assignment changes the assigned property and nothing else,
    an overridden property can be put back, and the object can be
    extended. *)

(** X1.  The nested [auth0] object is held by reference.  For any
    configuration [e], [environment.auth0] evaluates to the inner object,
    and assigning a string [s] to one of its properties through that
    reference is seen through [environment]: the contents become [e] with
    that one property of [auth0] replaced. *)
Theorem auth0_is_shared_by_reference
    (e : EnvironmentConfig) (f : auth0_field) (s : string) :
  results [Get; GetProp 1 "auth0"] (load e) = [Ok (VObject 1); Ok (VObject 0)]
  /\ snapshot (exec [SetProp 0 (auth0_field_name f) (VString s)] (load e))
     = Some {| production := production e;
               apiServerUrl := apiServerUrl e;
               auth0 := set_auth0_field f s (auth0 e) |}
  /\ fst (step (GetProp 0 (auth0_field_name f))
            (exec [SetProp 0 (auth0_field_name f) (VString s)] (load e)))
     = Ok (VString s).
Proof.
  destruct e as [p api [u a c cb]].
  destruct f; repeat split; vm_compute; reflexivity.
Qed.

(** X2.  For any configuration [e], assigning to [environment.production]
    or to [environment.apiServerUrl] replaces that field and leaves every
    other field, the nested [auth0] fields included, as it was. *)
Theorem outer_assignment_changes_one_field
    (e : EnvironmentConfig) (b : bool) (s : string) :
  snapshot (exec [SetProp 1 "production" (VBool b)] (load e))
  = Some {| production := b; apiServerUrl := apiServerUrl e;
            auth0 := auth0 e |}
  /\ snapshot (exec [SetProp 1 "apiServerUrl" (VString s)] (load e))
     = Some {| production := production e; apiServerUrl := s;
               auth0 := auth0 e |}.
Proof.
  destruct e as [p api [u a c cb]].
  split; vm_compute; reflexivity.
Qed.

(** X3.  An overridden property can be put back.  When the object at [l]
    has the property [k] with value [old], assigning [v] to it and then
    assigning [old] again gives back the state before the two assignments,
    whatever [v] was. *)
Theorem override_then_restore
    (st : state) (l : loc) (k : string) (v old : value) (ob : object) :
  heap st !! l = Some ob ->
  ob !! k = Some old ->
  exec [SetProp l k v; SetProp l k old] st = st.
Proof.
  intros Hl Hk. destruct st as [h b n]; simpl in *.
  rewrite Hl; simpl. rewrite lookup_insert_eq; simpl.
  rewrite !insert_insert_eq.
  rewrite (insert_id ob k old Hk), (insert_id h l ob Hl).
  reflexivity.
Qed.

Lemma override_then_restore_witness :
  heap module_init !! 1 = Some (environment_object environment 0)
  /\ environment_object environment 0 !! "production" = Some (VBool false)
  /\ exec [SetProp 1 "production" (VBool true);
           SetProp 1 "production" (VBool false)] module_init
     = module_init.
Proof.
  split; [reflexivity|]. split; [reflexivity|].
  apply (override_then_restore module_init 1 "production" (VBool true)
           (VBool false) (environment_object environment 0));
    reflexivity.
Defined.

Lemma read_bool_insert_ne (o : object) (k k' : string) (v : value) :
  k <> k' -> read_bool (<[k := v]> o) k' = read_bool o k'.
Proof. intros H. unfold read_bool. now rewrite lookup_insert_ne. Qed.

Lemma read_string_insert_ne (o : object) (k k' : string) (v : value) :
  k <> k' -> read_string (<[k := v]> o) k' = read_string o k'.
Proof. intros H. unfold read_string. now rewrite lookup_insert_ne. Qed.

(** X4.  The object is extensible.  For any configuration [e], assigning
    any value to a property of [environment] whose name is neither
    ["__proto__"] nor one of those written in the literal adds that
    property, which then reads back the assigned value, and leaves the
    configuration as it was: [production], [apiServerUrl] and the [auth0]
    fields read as before. *)
Theorem extending_environment_keeps_configuration
    (e : EnvironmentConfig) (k : string) (v : value) :
  k <> "__proto__" ->
  ~ In k environment_keys ->
  snapshot (exec [SetProp 1 k v] (load e)) = Some e
  /\ fst (step (GetProp 1 k) (exec [SetProp 1 k v] (load e))) = Ok v.
Proof.
  intros _ Hk.
  assert (H1 : k <> "production") by (intros ->; apply Hk; simpl; tauto).
  assert (H2 : k <> "apiServerUrl") by (intros ->; apply Hk; simpl; tauto).
  assert (H3 : k <> "auth0") by (intros ->; apply Hk; simpl; tauto).
  pose proof (snapshot_load e) as Hs.
  unfold snapshot, load, alloc in *. simpl in *.
  rewrite lookup_insert_eq in *. simpl in *.
  rewrite lookup_insert_eq. simpl.
  split.
  - rewrite read_bool_insert_ne, read_string_insert_ne by assumption.
    unfold read_object in *. rewrite lookup_insert_ne by assumption.
    destruct (read_bool _ _) as [p|]; [|discriminate Hs]. simpl in *.
    destruct (read_string _ _) as [api|]; [|discriminate Hs]. simpl in *.
    destruct (environment_object e 0 !! "auth0") as [[| | |la]|];
      try discriminate Hs.
    destruct (decide (1 = la)) as [<-|Hne].
    + exfalso. revert Hs. vm_compute. discriminate.
    + rewrite lookup_insert_ne by assumption. exact Hs.
  - rewrite lookup_insert_eq. reflexivity.
Qed.

Lemma extending_environment_keeps_configuration_witness :
  "apiBaseUrl" <> "__proto__"
  /\ ~ In "apiBaseUrl" environment_keys
  /\ snapshot (exec [SetProp 1 "apiBaseUrl" (VString "http://example.org")]
                 module_init) = Some environment
  /\ fst (step (GetProp 1 "apiBaseUrl")
            (exec [SetProp 1 "apiBaseUrl" (VString "http://example.org")]
               module_init)) = Ok (VString "http://example.org").
Proof.
  assert (Hp : "apiBaseUrl" <> "__proto__") by discriminate.
  assert (H : ~ In "apiBaseUrl" environment_keys).
  { simpl. intros [H|[H|[H|[]]]]; discriminate H. }
  split; [exact Hp|]. split; [exact H|].
  apply (extending_environment_keeps_configuration environment
           "apiBaseUrl" (VString "http://example.org") Hp H).
Defined.
